(** * Recometry client: connection lifecycle and passthrough calls

    A shallow embedding of [src/index.ts].  The class [Recometry] wraps a
    SignalR [HubConnection] (the real-time channel) and the global [fetch]
    (the request/response transport).  Both collaborators are external: they
    are interfaces here ([HubConnection], [Platform]) and every statement is
    proved for all their implementations.

    The code is asynchronous but runs as one flow of control: an [await]
    is sequencing, a rejected promise is a throw completion.  A call that is
    not awaited runs to its first [await] and leaves the rest to run when the
    awaited promise settles.  Methods are computations in a
    state-and-exception monad over the object, its surroundings and a
    chronological log of what was called. *)

From Stdlib Require Import String List Bool ZArith QArith.
Import ListNotations.

Set Implicit Arguments.
Set Warnings "-register-all".
Local Open Scope string_scope.

(** ** Run-time values *)

(** The values that travel through the library untouched: thrown errors,
    event attributes, call arguments and parsed response bodies.  Numbers are
    only carried, never computed on. *)
Inductive JsValue : Type :=
| JsUndefined
| JsNull
| JsBool (b : bool)
| JsNumber (n : Q)
| JsString (s : string)
| JsArray (items : list JsValue)
| JsObject (props : list (string * JsValue))
| JsError (message : string).

(** The values that are not objects, apart from [undefined] and [null]. *)
Inductive Primitive :=
| PBoolean (b : bool)
| PNumber (n : Q)
| PNaN
| PBigInt (z : Z)
| PString (s : string)
| PSymbol.

(** The primitives that [!] turns into [true]: [false], zero, [NaN], [0n]
    and the empty string. *)
Definition falsy (p : Primitive) : bool :=
  match p with
  | PBoolean b => negb b
  | PNumber n => Qeq_bool n 0%Q
  | PNaN => true
  | PBigInt z => Z.eqb z 0%Z
  | PString s => String.eqb s ""
  | PSymbol => false
  end.

(** What can arrive at run time where an object of type [A] is declared:
    [undefined], [null], a primitive, or an object. *)
Inductive Argument (A : Type) : Type :=
| undefined
| null
| primitive (p : Primitive)
| object (a : A).
Arguments undefined {A}.
Arguments null {A}.
Arguments primitive {A} p.

(** The truth value of an argument: objects are true, [undefined] and [null]
    are not. *)
Definition truthy {A} (v : Argument A) : bool :=
  match v with
  | undefined | null => false
  | primitive p => negb (falsy p)
  | object _ => true
  end.

(** How a call ends: it returns (an awaited promise resolves) or it throws
    (the promise rejects) with any value. *)
Inductive Completion (A : Type) : Type :=
| Normal (a : A)
| Throw (e : JsValue).
Arguments Throw {A} e.

(** ** Types declared in the source *)

Inductive EventType := click | rating.

Definition EventType_to_js (t : EventType) : JsValue :=
  match t with click => JsString "click" | rating => JsString "rating" end.

Module RecometryEvent.
Record t := {
  id : string;
  type : EventType;
  data : list (string * JsValue);
  productId : Q;
  userId : string
}.
(** The object the record is at run time. *)
Definition to_js (e : t) : JsValue :=
  JsObject [("id", JsString (id e)); ("type", EventType_to_js (type e));
            ("data", JsObject (data e)); ("productId", JsNumber (productId e));
            ("userId", JsString (userId e))].
End RecometryEvent.

Module RecommendationRequest.
Record t := {
  modelId : string;
  userId : string;
  limit : Q
}.
Definition to_js (r : t) : JsValue :=
  JsObject [("modelId", JsString (modelId r)); ("userId", JsString (userId r));
            ("limit", JsNumber (limit r))].
End RecommendationRequest.

Module PredictionRequest.
Record t := {
  modelId : string;
  data : list (string * JsValue);
  limit : Q
}.
Definition to_js (r : t) : JsValue :=
  JsObject [("modelId", JsString (modelId r)); ("data", JsObject (data r));
            ("limit", JsNumber (limit r))].
End PredictionRequest.

(** ** The real-time channel (SignalR) *)

(** Modelled from the spec: the enumeration [HubConnectionState] is imported
    from the transport library, whose declaration is not part of the
    repository; the specification lists these four states. *)
Inductive HubConnectionState :=
| Disconnected
| Connecting
| Connected
| Reconnecting.

Definition HubConnectionState_eqb (a b : HubConnectionState) : bool :=
  match a, b with
  | Disconnected, Disconnected | Connecting, Connecting
  | Connected, Connected | Reconnecting, Reconnecting => true
  | _, _ => false
  end.

(** [HttpTransportType] is the transport library's enumeration as well; the
    source names this member only. *)
Inductive HttpTransportType := WebSockets.

(** What the builder chain of the constructor fixes:
    [withUrl(url, {accessTokenFactory, skipNegotiation, transport})] and
    [withAutomaticReconnect()]. *)
Record HubSpec := {
  hub_url : string;
  accessTokenFactory : unit -> option string;
  skipNegotiation : bool;
  transport : HttpTransportType;
  automaticReconnect : bool
}.

(** The handle as the library sees it.  [Hub] is the whole condition of the
    channel; starting, stopping and invoking may leave it in any condition
    and may reject with any value.  [Handler] is what [on] registers.

    A call of [start()] returns a promise at once and settles later:
    [hub_start_called] is the handle when the call has returned,
    [hub_start_settled] what the promise settles with and the handle then.

    [hub_handlers name] is what the library runs on a notification [name].
    The library is assumed to keep its registrations: the handler registered
    on a new connection is the one handler of its name, and starting,
    stopping and invoking leave the handlers as they are. *)
Class HubConnection (Hub Handler : Type) := {
  hub_build : HubSpec -> Hub;
  hub_on : string -> Handler -> Hub -> Hub;
  hub_handlers : string -> Hub -> list Handler;
  hub_state : Hub -> HubConnectionState;
  hub_start_called : Hub -> Hub;
  hub_start_settled : Hub -> Hub * Completion unit;
  hub_stop : Hub -> Hub * Completion unit;
  hub_invoke : string -> list JsValue -> Hub -> Hub * Completion JsValue;
  hub_on_registers : forall name f spec,
    hub_handlers name (hub_on name f (hub_build spec)) = [f];
  hub_start_called_keeps : forall name h,
    hub_handlers name (hub_start_called h) = hub_handlers name h;
  hub_start_settled_keeps : forall name h,
    hub_handlers name (fst (hub_start_settled h)) = hub_handlers name h;
  hub_stop_keeps : forall name h,
    hub_handlers name (fst (hub_stop h)) = hub_handlers name h;
  hub_invoke_keeps : forall name method args h,
    hub_handlers name (fst (hub_invoke method args h)) = hub_handlers name h
}.

(** [await this.websocket.start()]: the call and the wait for its promise. *)
Definition hub_start {Hub Handler : Type} `{HubConnection Hub Handler} (h : Hub)
  : Hub * Completion unit :=
  hub_start_settled (hub_start_called h).
Arguments hub_start : simpl never.

(** ** The request/response transport and the built-ins *)

Record Request := {
  url : string;
  method : string;
  headers : list (string * string);
  body : string
}.

Record Response := {
  status : nat;
  text : string
}.

(** [fetch], [Response.json] and [JSON.stringify].  The values serialised
    here are finite trees of plain data, on which [JSON.stringify] returns. *)
Class Platform (Net : Type) := {
  fetch : Request -> Net -> Net * Completion Response;
  response_json : Response -> Net -> Net * Completion JsValue;
  JSON_stringify : JsValue -> string
}.

(** ** What is observed *)

Inductive Method :=
| Mconnect | Mdisconnect | Mreconnect | Mcollect | Mrecommend | Mpredict.

(** One entry per call that leaves or enters the object: a method of the
    class being entered, a call on the channel handle, an outbound request,
    the error callback, a console line. *)
Inductive Event :=
| EEnter (m : Method)
| EBuild (spec : HubSpec)
| EOn (name : string)
| EStart
| EStop
| EInvoke (name : string) (args : list JsValue)
| EFetch (req : Request)
| EJson (resp : Response)
| EOnError (err : JsValue)
| EConsoleLog (args : list JsValue)
| EConsoleError (args : list JsValue).

(** The methods entered, in order. *)
Fixpoint entered (l : list Event) : list Method :=
  match l with
  | [] => []
  | EEnter m :: l' => m :: entered l'
  | _ :: l' => entered l'
  end.

(** The calls made on the channel handle, in order. *)
Definition is_channel_call (e : Event) : bool :=
  match e with
  | EBuild _ | EOn _ | EStart | EStop | EInvoke _ _ => true
  | _ => false
  end.

Definition channel_calls (l : list Event) : list Event := filter is_channel_call l.

(** Template-literal interpolation of a string property that may be absent. *)
Definition interpolate (v : option string) : string :=
  match v with Some s => s | None => "undefined" end.

Section Manager.

Context {Hub Net App : Type}.

(** [App] is the state of the calling application, which the error
    callback acts on.  [None] in [apiKey] or [env] is the property being
    absent: the declared type requires both, nothing at run time does.
    [env] is a string at run time; the union ['sandbox' | 'live'] is a
    compile-time annotation. *)
Record RecometryConfig := {
  apiKey : option string;
  env : option string;
  onError : option (JsValue -> App -> App * Completion unit)
}.

(** The fields of the class.  All three are [readonly]; [websocket] stands
    for the one handle and its current condition. *)
Record Recometry := {
  configuration : RecometryConfig;
  baseUrl : string;
  websocket : Hub
}.

Record Host := {
  net : Net;
  app : App;
  log : list Event
}.

Record State := {
  this : Recometry;
  host : Host
}.

(** What [websocket.on] registers: a function of the notified value that
    acts on the surroundings. *)
Definition Handler : Type := JsValue -> Host -> Host * Completion unit.

Context `{HubConnection Hub Handler} `{Platform Net}.

Definition M (A : Type) : Type := State -> State * Completion A.

Definition ret {A} (a : A) : M A := fun s => (s, Normal a).

Definition bind {A B} (m : M A) (k : A -> M B) : M B :=
  fun s =>
    match snd (m s) with
    | Normal a => k a (fst (m s))
    | Throw e => (fst (m s), Throw e)
    end.

(** [try { body } catch (err) { handler }] *)
Definition try_catch {A} (body : M A) (handler : JsValue -> M A) : M A :=
  fun s =>
    match snd (body s) with
    | Normal a => (fst (body s), Normal a)
    | Throw err => handler err (fst (body s))
    end.

Definition record (e : Event) (h : Host) : Host :=
  {| net := net h; app := app h; log := (log h ++ [e])%list |}.

Definition emit (e : Event) : M unit :=
  fun s => ({| this := this s; host := record e (host s) |}, Normal tt).

Definition with_websocket (s : State) (ws : Hub) : State :=
  {| this := {| configuration := configuration (this s);
                baseUrl := baseUrl (this s);
                websocket := ws |};
     host := host s |}.

Definition with_net (s : State) (n : Net) : State :=
  {| this := this s;
     host := {| net := n; app := app (host s); log := log (host s) |} |}.

(** A call on the channel handle. *)
Definition on_websocket {A} (f : Hub -> Hub * Completion A) : M A :=
  fun s => (with_websocket s (fst (f (websocket (this s)))),
            snd (f (websocket (this s)))).

Definition on_net {A} (f : Net -> Net * Completion A) : M A :=
  fun s => (with_net s (fst (f (net (host s)))), snd (f (net (host s)))).

Notation "x <- m ;; k" := (bind m (fun x => k))
  (at level 61, m at next level, right associativity).
Notation "m ;;; k" := (bind m (fun _ => k))
  (at level 61, right associativity).

Definition console_error (args : list JsValue) : M unit := emit (EConsoleError args).

(** [this.websocket.state] *)
Definition websocket_state : M HubConnectionState :=
  fun s => (s, Normal (hub_state (websocket (this s)))).

(** [this.websocket.start()], [.stop()], [.invoke(name, ...args)] *)
Definition websocket_start : M unit := emit EStart ;;; on_websocket hub_start.
Definition websocket_stop : M unit := emit EStop ;;; on_websocket hub_stop.
Definition websocket_invoke (name : string) (args : list JsValue) : M JsValue :=
  emit (EInvoke name args) ;;; on_websocket (hub_invoke name args).

(** The closure the constructor registers for the "error" notification:
    [async (err) => { console.log("error", err);
                      if (config.onError) await config.onError(err); }] *)
Definition error_handler (config : RecometryConfig) : Handler :=
  fun err h =>
    let h1 := record (EConsoleLog [JsString "error"; err]) h in
    match onError config with
    | Some cb =>
        let h2 := record (EOnError err) h1 in
        ({| net := net h2; app := fst (cb err (app h2)); log := log h2 |},
         snd (cb err (app h2)))
    | None => (h1, Normal tt)
    end.

Definition connect : M unit :=
  emit (EEnter Mconnect) ;;;
  try_catch
    (st <- websocket_state ;;
     if HubConnectionState_eqb st Connected then ret tt
     else websocket_start)
    (fun err => console_error [JsString "Connect failed:"; err]).

Definition disconnect : M unit :=
  emit (EEnter Mdisconnect) ;;;
  try_catch
    (st <- websocket_state ;;
     if negb (HubConnectionState_eqb st Disconnected) then websocket_stop
     else ret tt)
    (fun err => console_error [err]).

Definition reconnect : M unit :=
  emit (EEnter Mreconnect) ;;;
  try_catch
    (st <- websocket_state ;;
     if HubConnectionState_eqb st Connected then ret tt
     else disconnect ;;; connect)
    (fun err => console_error [err]).

Definition collect (event : RecometryEvent.t) : M unit :=
  emit (EEnter Mcollect) ;;;
  try_catch
    (reconnect ;;;
     _ <- websocket_invoke "collect" [RecometryEvent.to_js event] ;;
     ret tt)
    (fun err => console_error [JsString "Collect failed:"; err]).

(** The request both passthroughs build, up to path and payload. *)
Definition post_json (r : Recometry) (path : string) (payload : JsValue) : Request :=
  {| url := baseUrl r ++ path;
     method := "POST";
     headers := [("Content-Type", "application/json");
                 ("Authorization", "Bearer " ++ interpolate (apiKey (configuration r)))];
     body := JSON_stringify payload |}.

Definition do_fetch (req : Request) : M Response :=
  emit (EFetch req) ;;; on_net (fetch req).

Definition do_json (resp : Response) : M JsValue :=
  emit (EJson resp) ;;; on_net (response_json resp).

Definition recommend (payload : RecommendationRequest.t) : M JsValue :=
  emit (EEnter Mrecommend) ;;;
  fun s =>
    (response <- do_fetch (post_json (this s) "/api/v1/ml/recommend"
                                     (RecommendationRequest.to_js payload)) ;;
     parsed <- do_json response ;;
     ret parsed) s.

Definition predict (payload : PredictionRequest.t) : M JsValue :=
  emit (EEnter Mpredict) ;;;
  fun s =>
    (response <- do_fetch (post_json (this s) "/api/v1/ml/predict"
                                     (PredictionRequest.to_js payload)) ;;
     parsed <- do_json response ;;
     ret parsed) s.

(** [config.env === 'live' ? 'https://api.recometry.com' : 'https://localhost:5001'] *)
Definition base_of (e : option string) : string :=
  match e with
  | Some s => if String.eqb s "live" then "https://api.recometry.com"
              else "https://localhost:5001"
  | None => "https://localhost:5001"
  end.

Definition spec_of (config : RecometryConfig) : HubSpec :=
  {| hub_url := base_of (env config) ++ "/metrics";
     accessTokenFactory := fun _ => apiKey config;
     skipNegotiation := true;
     transport := WebSockets;
     automaticReconnect := true |}.

(** A call of [connect()] that is not awaited runs to its first [await]:
    it reads the state and, unless that is [Connected], calls [start()].
    The result says whether a start is then pending. *)
Definition connect_called (s : State) : State * bool :=
  let s1 := fst (emit (EEnter Mconnect) s) in
  if HubConnectionState_eqb (hub_state (websocket (this s1))) Connected
  then (s1, false)
  else (with_websocket (fst (emit EStart s1)) (hub_start_called (websocket (this s1))),
        true).

(** The rest of that [connect()], run when the pending start settles: the
    [await] ends and a rejection goes to the [catch]. *)
Definition connect_settled : M unit :=
  try_catch
    (on_websocket hub_start_settled)
    (fun err => console_error [JsString "Connect failed:"; err]).

(** The properties read off the argument: an object has its own; a
    primitive has none of the three. *)
Definition properties (config : Argument RecometryConfig) : RecometryConfig :=
  match config with
  | object c => c
  | undefined | null | primitive _ =>
      {| apiKey := None; env := None; onError := None |}
  end.

(** The constructor.  It throws or returns the new object.  The closing
    [this.connect()] is not awaited: the constructor returns when that call
    has reached its [await], with the start pending; [connect_settled] is
    what remains to run. *)
Definition constructor (config : Argument RecometryConfig) (h : Host)
  : Host * Completion Recometry :=
  if negb (truthy config) then (h, Throw (JsError "config is required"))
  else
    let c := properties config in
    let built :=
      {| this := {| configuration := c;
                    baseUrl := base_of (env c);
                    websocket := hub_on "error" (error_handler c) (hub_build (spec_of c)) |};
         host := record (EOn "error") (record (EBuild (spec_of c)) h) |} in
    let started := fst (connect_called built) in
    (host started, Normal (this started)).

(** Modelled from the spec: delivering a notification is the transport
    library's part, which is not in the repository; the specification has the
    transport hand the notified value to the registered handler and wait for
    it.  Each handler registered under [name] is run on the value, in order;
    the result lists how each run ended. *)
Definition notify (name : string) (arg : JsValue) (s : State)
  : State * list (Completion unit) :=
  fold_left
    (fun acc (f : Handler) =>
       ({| this := this (fst acc); host := fst (f arg (host (fst acc))) |},
        (snd acc ++ [snd (f arg (host (fst acc)))])%list))
    (hub_handlers name (websocket (this s)))
    (s, []).

(** The entries a run added to the log. *)
Definition since (before after : Host) : list Event :=
  skipn (length (log before)) (log after).

(** The state [s] with handle [ws] and [d] added to its log. *)
Definition moved (s : State) (ws : Hub) (d : list Event) : State :=
  {| this := {| configuration := configuration (this s);
                baseUrl := baseUrl (this s);
                websocket := ws |};
     host := {| net := net (host s); app := app (host s);
                log := (log (host s) ++ d)%list |} |}.

End Manager.

Arguments RecometryConfig App : clear implicits.
Arguments Recometry Hub App : clear implicits.
Arguments Host Net App : clear implicits.
Arguments Handler Net App : clear implicits.
Arguments State Hub Net App : clear implicits.

(** ** What the lifecycle methods amount to

    The entries each method adds to the log and the condition it leaves the
    handle in, as functions of the handle it finds. *)
Section Summary.

Context {Hub Handler : Type} `{HubConnection Hub Handler}.

Definition connect_trace (ws : Hub) : list Event :=
  EEnter Mconnect ::
  if HubConnectionState_eqb (hub_state ws) Connected then []
  else EStart :: match snd (hub_start ws) with
                 | Normal _ => []
                 | Throw err => [EConsoleError [JsString "Connect failed:"; err]]
                 end.

Definition connect_hub (ws : Hub) : Hub :=
  if HubConnectionState_eqb (hub_state ws) Connected then ws
  else fst (hub_start ws).

Definition disconnect_trace (ws : Hub) : list Event :=
  EEnter Mdisconnect ::
  if HubConnectionState_eqb (hub_state ws) Disconnected then []
  else EStop :: match snd (hub_stop ws) with
                | Normal _ => []
                | Throw err => [EConsoleError [err]]
                end.

Definition disconnect_hub (ws : Hub) : Hub :=
  if HubConnectionState_eqb (hub_state ws) Disconnected then ws
  else fst (hub_stop ws).

Definition reconnect_trace (ws : Hub) : list Event :=
  EEnter Mreconnect ::
  if HubConnectionState_eqb (hub_state ws) Connected then []
  else (disconnect_trace ws ++ connect_trace (disconnect_hub ws))%list.

Definition reconnect_hub (ws : Hub) : Hub :=
  if HubConnectionState_eqb (hub_state ws) Connected then ws
  else connect_hub (disconnect_hub ws).

End Summary.

(** ** Reading the log *)

(** The outbound requests, the channels built and the remote methods invoked,
    in order. *)
Fixpoint requests (l : list Event) : list Request :=
  match l with
  | [] => []
  | EFetch req :: l' => req :: requests l'
  | _ :: l' => requests l'
  end.

Fixpoint built (l : list Event) : list HubSpec :=
  match l with
  | [] => []
  | EBuild spec :: l' => spec :: built l'
  | _ :: l' => built l'
  end.

Fixpoint invocations (l : list Event) : list (string * list JsValue) :=
  match l with
  | [] => []
  | EInvoke name args :: l' => (name, args) :: invocations l'
  | _ :: l' => invocations l'
  end.

Fixpoint callbacks (l : list Event) : list JsValue :=
  match l with
  | [] => []
  | EOnError err :: l' => err :: callbacks l'
  | _ :: l' => callbacks l'
  end.

(** The lines written with [console.error], in order. *)
Fixpoint console_errors (l : list Event) : list (list JsValue) :=
  match l with
  | [] => []
  | EConsoleError args :: l' => args :: console_errors l'
  | _ :: l' => console_errors l'
  end.

(** The console line a [catch] writes for a call that ended as [c]: none
    when it returned, [prefix] followed by the value thrown otherwise. *)
Definition reported {A} (prefix : list JsValue) (c : Completion A) : list (list JsValue) :=
  match c with
  | Normal _ => []
  | Throw err => [(prefix ++ [err])%list]
  end.

(** [keeps_surroundings m s]: run from [s], the method [m] leaves the
    network, the application and the two configuration fields of the object
    as they were, sends no request and does not call the error callback. *)
Definition keeps_surroundings {Hub Net App : Type} {A : Type}
    (m : State Hub Net App -> State Hub Net App * Completion A)
    (s : State Hub Net App) : Prop :=
  net (host (fst (m s))) = net (host s) /\
  app (host (fst (m s))) = app (host s) /\
  configuration (this (fst (m s))) = configuration (this s) /\
  baseUrl (this (fst (m s))) = baseUrl (this s) /\
  requests (since (host s) (host (fst (m s)))) = [] /\
  callbacks (since (host s) (host (fst (m s)))) = [].

(** The declared values of [env] and the address the constructor's
    conditional gives each. *)
Inductive Environment := sandbox | live.

Definition Environment_name (e : Environment) : string :=
  match e with sandbox => "sandbox" | live => "live" end.

Definition address_of (e : Environment) : string :=
  match e with
  | sandbox => "https://localhost:5001"
  | live => "https://api.recometry.com"
  end.

(** [uses_base base c h]: constructing with [c] in surroundings [h] returns
    an object whose base address is [base], whose one channel is built at
    [base/metrics], and whose two passthroughs, wherever they are run, send
    their one request to [base/api/v1/ml/recommend] and
    [base/api/v1/ml/predict]. *)
Definition uses_base {Hub Net App : Type}
    `{HubConnection Hub (Handler Net App)} `{Platform Net}
    (base : string) (c : RecometryConfig App) (h : Host Net App) : Prop :=
  exists r : Recometry Hub App,
    snd (constructor (object c) h) = Normal r /\
    configuration r = c /\
    baseUrl r = base /\
    map hub_url (built (since h (fst (constructor (object c) h)))) = [base ++ "/metrics"] /\
    forall (h' : Host Net App) (p : RecommendationRequest.t) (q : PredictionRequest.t),
      map url (requests (since h' (host (fst (recommend p {| this := r; host := h' |})))))
        = [base ++ "/api/v1/ml/recommend"] /\
      map url (requests (since h' (host (fst (predict q {| this := r; host := h' |})))))
        = [base ++ "/api/v1/ml/predict"].

(** ** Test doubles

    A channel, a network and an application to run the class on. *)
Module Mock.

(** A network that answers from a queue and fails when it is empty; a body
    parses when it is one of two known texts. *)
Record Net := { replies : list (Completion Response) }.

Definition answer (req : Request) (n : Net) : Net * Completion Response :=
  match replies n with
  | [] => (n, Throw (JsError "Failed to fetch"))
  | r :: rest => ({| replies := rest |}, r)
  end.

Definition parse (resp : Response) (n : Net) : Net * Completion JsValue :=
  if String.eqb (text resp) "null" then (n, Normal JsNull)
  else if String.eqb (text resp) "[]" then (n, Normal (JsArray []))
  else (n, Throw (JsError "Unexpected token")).

#[global] Instance platform : Platform Net := {
  fetch := answer;
  response_json := parse;
  JSON_stringify := fun _ => "{}"
}.

(** An application that keeps the errors its callback was given; the
    callback rejects on [null]. *)
Definition App := list JsValue.

Definition remember (err : JsValue) (a : App) : App * Completion unit :=
  match err with
  | JsNull => (err :: a, Throw (JsError "callback failed"))
  | _ => (err :: a, Normal tt)
  end.

(** A channel that follows a script: each of start, stop and invoke takes
    the next scripted reaction (the state it leaves, how the call ends).
    Without a script it behaves: start connects, stop disconnects, invoke
    needs a connected channel.  A start that was called and has not settled
    shows [Connecting].  The channel keeps what is registered on it. *)
Record Hub := {
  current : HubConnectionState;
  script : list (HubConnectionState * Completion JsValue);
  handlers : list (string * Handler Net App)
}.

Definition void (c : Completion JsValue) : Completion unit :=
  match c with Normal _ => Normal tt | Throw e => Throw e end.

Definition react (default : HubConnectionState * Completion JsValue) (h : Hub)
  : Hub * Completion JsValue :=
  match script h with
  | [] => ({| current := fst default; script := []; handlers := handlers h |}, snd default)
  | (st, c) :: rest => ({| current := st; script := rest; handlers := handlers h |}, c)
  end.

Definition start_called (h : Hub) : Hub :=
  {| current := Connecting; script := script h; handlers := handlers h |}.

Definition start_settled (h : Hub) : Hub * Completion unit :=
  (fst (react (Connected, Normal JsUndefined) h),
   void (snd (react (Connected, Normal JsUndefined) h))).

Definition stop (h : Hub) : Hub * Completion unit :=
  (fst (react (Disconnected, Normal JsUndefined) h),
   void (snd (react (Disconnected, Normal JsUndefined) h))).

Definition invoke (name : string) (args : list JsValue) (h : Hub)
  : Hub * Completion JsValue :=
  react (current h,
         match current h with
         | Connected => Normal JsUndefined
         | _ => Throw (JsError "Cannot send data if the connection is not in the 'Connected' State.")
         end) h.

Definition on (name : string) (f : Handler Net App) (h : Hub) : Hub :=
  {| current := current h; script := script h;
     handlers := (handlers h ++ [(name, f)])%list |}.

Definition registered (name : string) (h : Hub) : list (Handler Net App) :=
  map snd (filter (fun entry => String.eqb (fst entry) name) (handlers h)).

#[global, refine] Instance hub : HubConnection Hub (Handler Net App) := {
  hub_build := fun _ => {| current := Disconnected; script := []; handlers := [] |};
  hub_on := on;
  hub_handlers := registered;
  hub_state := current;
  hub_start_called := start_called;
  hub_start_settled := start_settled;
  hub_stop := stop;
  hub_invoke := invoke
}.
Proof.
  - intros name f spec. unfold registered, on. cbn. rewrite String.eqb_refl. reflexivity.
  - reflexivity.
  - intros name h. unfold start_settled, react. destruct (script h) as [|[st c] rest]; reflexivity.
  - intros name h. unfold stop, react. destruct (script h) as [|[st c] rest]; reflexivity.
  - intros name method args h. unfold invoke, react.
    destruct (script h) as [|[st c] rest]; reflexivity.
Defined.

Definition host0 : Host Net App := {| net := {| replies := [] |}; app := []; log := [] |}.

Definition no_fields : RecometryConfig App :=
  {| apiKey := None; env := None; onError := None |}.

Definition staging : RecometryConfig App :=
  {| apiKey := Some "k"; env := Some "staging"; onError := None |}.

Definition config_of (e : Environment) : RecometryConfig App :=
  {| apiKey := Some "k"; env := Some (Environment_name e); onError := Some remember |}.

Definition machine (st : HubConnectionState) (sc : list (HubConnectionState * Completion JsValue))
  : State Hub Net App :=
  {| this := {| configuration := config_of sandbox;
                baseUrl := "https://localhost:5001";
                websocket := {| current := st; script := sc; handlers := [] |} |};
     host := host0 |}.

(** An object constructed without a credential. *)
Definition keyless (st : HubConnectionState) : State Hub Net App :=
  {| this := {| configuration := no_fields;
                baseUrl := "https://localhost:5001";
                websocket := {| current := st; script := []; handlers := [] |} |};
     host := host0 |}.

Definition click1 : RecometryEvent.t :=
  {| RecometryEvent.id := "1"; RecometryEvent.type := click; RecometryEvent.data := [];
     RecometryEvent.productId := 1; RecometryEvent.userId := "u" |}.

End Mock.

(** * Properties *)

Example mock_collect_disconnected :
  snd (collect Mock.click1 (Mock.machine Disconnected [])) = Normal tt /\
  log (host (fst (collect Mock.click1 (Mock.machine Disconnected [])))) =
    [EEnter Mcollect; EEnter Mreconnect; EEnter Mdisconnect; EEnter Mconnect; EStart;
     EInvoke "collect" [RecometryEvent.to_js Mock.click1]].
Proof. vm_compute. split; reflexivity. Qed.

Example mock_collect_unreachable :
  let failing := [(Disconnected, Throw (JsError "down")); (Disconnected, Throw (JsError "closed"))] in
  snd (collect Mock.click1 (Mock.machine Reconnecting ((Disconnected, Normal JsUndefined) :: failing))) = Normal tt /\
  log (host (fst (collect Mock.click1 (Mock.machine Reconnecting ((Disconnected, Normal JsUndefined) :: failing))))) =
    [EEnter Mcollect; EEnter Mreconnect; EEnter Mdisconnect; EStop; EEnter Mconnect; EStart;
     EConsoleError [JsString "Connect failed:"; JsError "down"];
     EInvoke "collect" [RecometryEvent.to_js Mock.click1];
     EConsoleError [JsString "Collect failed:"; JsError "closed"]].
Proof. vm_compute. split; reflexivity. Qed.

Lemma HubConnectionState_eqb_spec a b :
  reflect (a = b) (HubConnectionState_eqb a b).
Proof. destruct a, b; simpl; constructor; congruence. Qed.

Lemma skipn_length_app {A} (l d : list A) : skipn (length l) (l ++ d) = d.
Proof. induction l as [|x l IH]; simpl; auto. Qed.

Lemma entered_app l1 l2 : entered (l1 ++ l2) = (entered l1 ++ entered l2)%list.
Proof.
  induction l1 as [|e l1 IH]; simpl; [reflexivity|].
  destruct e; simpl; rewrite ?IH; reflexivity.
Qed.

Lemma invocations_app l1 l2 :
  invocations (l1 ++ l2) = (invocations l1 ++ invocations l2)%list.
Proof.
  induction l1 as [|e l1 IH]; simpl; [reflexivity|].
  destruct e; simpl; rewrite ?IH; reflexivity.
Qed.

Section Properties.

Context {Hub Net App : Type} `{HubConnection Hub (Handler Net App)} `{Platform Net}.

Implicit Types (s : State Hub Net App) (h : Host Net App) (ws : Hub).

Notation "x <- m ;; k" := (bind m (fun x => k))
  (at level 61, m at next level, right associativity).
Notation "m ;;; k" := (bind m (fun _ => k))
  (at level 61, right associativity).

Lemma since_moved s ws d : since (host s) (host (moved s ws d)) = d.
Proof. unfold since; simpl. apply skipn_length_app. Qed.

Ltac run :=
  unfold connect, disconnect, reconnect, collect, websocket_start, websocket_stop,
    websocket_invoke, websocket_state, console_error, try_catch,
    bind, ret, emit, on_websocket, with_websocket, record, moved;
  cbn.

Lemma connect_run s :
  connect s = (moved s (connect_hub (websocket (this s)))
                       (connect_trace (websocket (this s))), Normal tt).
Proof.
  destruct s as [[c b ws] [n a l]]. unfold connect_hub, connect_trace. run.
  destruct (HubConnectionState_eqb (hub_state ws) Connected); cbn; [reflexivity|].
  destruct (hub_start ws) as [ws' [[]|err]]; cbn;
    rewrite <- ?app_assoc; reflexivity.
Qed.

Lemma disconnect_run s :
  disconnect s = (moved s (disconnect_hub (websocket (this s)))
                          (disconnect_trace (websocket (this s))), Normal tt).
Proof.
  destruct s as [[c b ws] [n a l]]. unfold disconnect_hub, disconnect_trace. run.
  destruct (HubConnectionState_eqb (hub_state ws) Disconnected); cbn; [reflexivity|].
  destruct (hub_stop ws) as [ws' [[]|err]]; cbn;
    rewrite <- ?app_assoc; reflexivity.
Qed.

Lemma moved_moved s ws d ws' d' :
  moved (moved s ws d) ws' d' = moved s ws' (d ++ d').
Proof. unfold moved; cbn. rewrite <- app_assoc. reflexivity. Qed.

Lemma emit_run e s : emit e s = (moved s (websocket (this s)) [e], Normal tt).
Proof. destruct s as [[c b ws] [n a l]]. reflexivity. Qed.

Lemma reconnect_run s :
  reconnect s = (moved s (reconnect_hub (websocket (this s)))
                         (reconnect_trace (websocket (this s))), Normal tt).
Proof.
  unfold reconnect, reconnect_hub, reconnect_trace.
  unfold bind at 1. rewrite emit_run; cbn [fst snd].
  unfold try_catch, bind, websocket_state, ret; cbn [fst snd].
  cbn [moved this websocket].
  destruct (HubConnectionState_eqb (hub_state (websocket (this s))) Connected);
    cbn [fst snd]; [reflexivity|].
  rewrite disconnect_run; cbn [fst snd]. rewrite connect_run; cbn [fst snd].
  rewrite !moved_moved. reflexivity.
Qed.

Lemma entered_connect_trace ws : entered (connect_trace ws) = [Mconnect].
Proof.
  unfold connect_trace; cbn.
  destruct (HubConnectionState_eqb (hub_state ws) Connected); cbn; [reflexivity|].
  destruct (snd (hub_start ws)); reflexivity.
Qed.

Lemma entered_disconnect_trace ws : entered (disconnect_trace ws) = [Mdisconnect].
Proof.
  unfold disconnect_trace; cbn.
  destruct (HubConnectionState_eqb (hub_state ws) Disconnected); cbn; [reflexivity|].
  destruct (snd (hub_stop ws)); reflexivity.
Qed.

Lemma invocations_connect_trace ws : invocations (connect_trace ws) = [].
Proof.
  unfold connect_trace; cbn.
  destruct (HubConnectionState_eqb (hub_state ws) Connected); cbn; [reflexivity|].
  destruct (snd (hub_start ws)); reflexivity.
Qed.

Lemma invocations_disconnect_trace ws : invocations (disconnect_trace ws) = [].
Proof.
  unfold disconnect_trace; cbn.
  destruct (HubConnectionState_eqb (hub_state ws) Disconnected); cbn; [reflexivity|].
  destruct (snd (hub_stop ws)); reflexivity.
Qed.

Lemma invocations_reconnect_trace ws : invocations (reconnect_trace ws) = [].
Proof.
  unfold reconnect_trace; cbn [invocations].
  destruct (HubConnectionState_eqb (hub_state ws) Connected); [reflexivity|].
  rewrite invocations_app, invocations_disconnect_trace, invocations_connect_trace.
  reflexivity.
Qed.

Lemma this_moved_same s d : this (moved s (websocket (this s)) d) = this s.
Proof. destruct s as [[c b ws] [n a l]]. reflexivity. Qed.

Lemma channel_calls_connect_trace ws :
  channel_calls (connect_trace ws) =
    if HubConnectionState_eqb (hub_state ws) Connected then [] else [EStart].
Proof.
  unfold connect_trace, channel_calls; cbn.
  destruct (HubConnectionState_eqb (hub_state ws) Connected); cbn; [reflexivity|].
  destruct (snd (hub_start ws)); reflexivity.
Qed.

Lemma channel_calls_disconnect_trace ws :
  channel_calls (disconnect_trace ws) =
    if HubConnectionState_eqb (hub_state ws) Disconnected then [] else [EStop].
Proof.
  unfold disconnect_trace, channel_calls; cbn.
  destruct (HubConnectionState_eqb (hub_state ws) Disconnected); cbn; [reflexivity|].
  destruct (snd (hub_stop ws)); reflexivity.
Qed.

Lemma channel_calls_reconnect_tail ws :
  channel_calls (EEnter Mreconnect ::
                 disconnect_trace ws ++ connect_trace (disconnect_hub ws)) =
    ((if HubConnectionState_eqb (hub_state ws) Disconnected then [] else [EStop]) ++
     (if HubConnectionState_eqb (hub_state (disconnect_hub ws)) Connected
      then [] else [EStart]))%list.
Proof.
  unfold channel_calls at 1. cbn [filter is_channel_call]. rewrite filter_app.
  fold (channel_calls (disconnect_trace ws)).
  fold (channel_calls (connect_trace (disconnect_hub ws))).
  rewrite channel_calls_disconnect_trace, channel_calls_connect_trace. reflexivity.
Qed.

(** C2. [reconnect()] never throws.  Found [Connected], it enters neither
    [disconnect()] nor [connect()], makes no call on the handle and leaves
    the object as it was.  Found in any other state, what it does is one
    whole run of [disconnect()] followed by one whole run of [connect()] on
    what [disconnect()] left, and nothing else: the state it ends in is the
    state that [connect()] ends in, its log is its own entry, the entries of
    that [disconnect()] and the entries of that [connect()], each entered
    once, and its calls on the handle are the stop of the one (none when
    found [Disconnected]) and then the start of the other (none when the
    stop left the handle [Connected]). *)
Theorem reconnect_calls s :
  let s0 := fst (emit (EEnter Mreconnect) s) in
  let s1 := fst (disconnect s0) in
  let s2 := fst (connect s1) in
  let s' := fst (reconnect s) in
  let d := since (host s) (host s') in
  snd (reconnect s) = Normal tt /\
  log (host s') = (log (host s) ++ d)%list /\
  match hub_state (websocket (this s)) with
  | Connected =>
      entered d = [Mreconnect] /\ channel_calls d = [] /\ this s' = this s
  | Disconnected | Connecting | Reconnecting =>
      entered d = [Mreconnect; Mdisconnect; Mconnect] /\
      s' = s2 /\
      snd (disconnect s0) = Normal tt /\
      snd (connect s1) = Normal tt /\
      d = (EEnter Mreconnect :: since (host s0) (host s1) ++ since (host s1) (host s2))%list /\
      entered (since (host s0) (host s1)) = [Mdisconnect] /\
      entered (since (host s1) (host s2)) = [Mconnect] /\
      channel_calls d =
        ((if HubConnectionState_eqb (hub_state (websocket (this s))) Disconnected
          then [] else [EStop]) ++
         (if HubConnectionState_eqb (hub_state (websocket (this s1))) Connected
          then [] else [EStart]))%list
  end.
Proof.
  cbv zeta. rewrite reconnect_run; cbn [fst snd]. rewrite since_moved.
  split; [reflexivity|]. split; [reflexivity|].
  rewrite emit_run; cbn [fst]. rewrite disconnect_run; cbn [fst snd].
  rewrite connect_run; cbn [fst snd]. rewrite !since_moved, !moved_moved.
  cbn [moved this websocket].
  unfold reconnect_trace, reconnect_hub.
  destruct (hub_state (websocket (this s))) eqn:E;
    cbn [HubConnectionState_eqb entered];
    rewrite ?entered_app, ?entered_disconnect_trace, ?entered_connect_trace;
    try (rewrite channel_calls_reconnect_tail, E; repeat split; reflexivity).
  repeat split. destruct s as [[c b ws] hh]. reflexivity.
Qed.

(** C6. [connect()] never throws.  Found [Connected], it returns at once:
    the handle is not started and the object is unchanged.  Otherwise it
    starts the handle, once; a failing start is written to the console and
    goes no further. *)
Theorem connect_idempotent s :
  let ws := websocket (this s) in
  let s' := fst (connect s) in
  let d := since (host s) (host s') in
  snd (connect s) = Normal tt /\
  log (host s') = (log (host s) ++ d)%list /\
  match hub_state ws with
  | Connected => d = [EEnter Mconnect] /\ channel_calls d = [] /\ this s' = this s
  | Disconnected | Connecting | Reconnecting =>
      websocket (this s') = fst (hub_start ws) /\
      channel_calls d = [EStart] /\
      d = EEnter Mconnect :: EStart ::
          match snd (hub_start ws) with
          | Normal _ => []
          | Throw err => [EConsoleError [JsString "Connect failed:"; err]]
          end
  end.
Proof.
  cbv zeta. rewrite connect_run; cbn [fst snd]. rewrite since_moved.
  split; [reflexivity|]. split; [reflexivity|].
  unfold connect_trace, connect_hub.
  destruct (hub_state (websocket (this s))); cbn [HubConnectionState_eqb];
    try (repeat split; try reflexivity;
         destruct (snd (hub_start (websocket (this s)))); reflexivity).
  repeat split. apply this_moved_same.
Qed.

Lemma collect_run (event : RecometryEvent.t) s :
  let ws := reconnect_hub (websocket (this s)) in
  let sent := hub_invoke "collect" [RecometryEvent.to_js event] ws in
  collect event s =
    (moved s (fst sent)
       (EEnter Mcollect :: reconnect_trace (websocket (this s)) ++
        EInvoke "collect" [RecometryEvent.to_js event] ::
        match snd sent with
        | Normal _ => []
        | Throw err => [EConsoleError [JsString "Collect failed:"; err]]
        end), Normal tt).
Proof.
  cbv zeta. unfold collect.
  unfold bind at 1. rewrite emit_run; cbn [fst snd].
  unfold try_catch. unfold bind at 1 3 5. rewrite reconnect_run; cbn [fst snd].
  unfold websocket_invoke, bind, on_websocket, ret. rewrite emit_run; cbn [fst snd].
  cbn [moved this websocket with_websocket host].
  destruct (hub_invoke "collect" [RecometryEvent.to_js event]
              (reconnect_hub (websocket (this s)))) as [ws' [v|err]];
    cbn [fst snd]; unfold console_error; rewrite ?emit_run; unfold moved; cbn;
    rewrite <- ?app_assoc; cbn; rewrite <- ?app_assoc; reflexivity.
Qed.

(** C1. [collect(event)] never throws, whatever the handle does.  It runs
    [reconnect()] to its end first, then invokes the remote method "collect"
    on the handle [reconnect()] left, with the event as the only argument,
    and nothing else is invoked; a failing invoke is written to the
    console. *)
Theorem collect_never_throws (event : RecometryEvent.t) s :
  let s0 := fst (emit (EEnter Mcollect) s) in
  let s1 := fst (reconnect s0) in
  let sent := hub_invoke "collect" [RecometryEvent.to_js event] (websocket (this s1)) in
  let s' := fst (collect event s) in
  let d := since (host s) (host s') in
  snd (collect event s) = Normal tt /\
  snd (reconnect s0) = Normal tt /\
  log (host s') = (log (host s) ++ d)%list /\
  d = (EEnter Mcollect :: since (host s0) (host s1) ++
       EInvoke "collect" [RecometryEvent.to_js event] ::
       match snd sent with
       | Normal _ => []
       | Throw err => [EConsoleError [JsString "Collect failed:"; err]]
       end)%list /\
  hd_error (since (host s0) (host s1)) = Some (EEnter Mreconnect) /\
  invocations d = [("collect", [RecometryEvent.to_js event])] /\
  websocket (this s') = fst sent.
Proof.
  cbv zeta. rewrite collect_run; cbn [fst snd]. rewrite emit_run; cbn [fst snd].
  rewrite reconnect_run; cbn [fst snd]. rewrite !since_moved.
  cbn [moved this websocket].
  repeat split.
  cbn [invocations]. rewrite invocations_app, invocations_reconnect_trace.
  cbn [invocations app].
  destruct (snd (hub_invoke "collect" [RecometryEvent.to_js event]
                   (reconnect_hub (websocket (this s))))); reflexivity.
Qed.

Lemma passthrough_run (tag : Method) (req : Request) s :
  let sent := fetch req (net (host s)) in
  (emit (EEnter tag) ;;;
   (response <- do_fetch req ;; parsed <- do_json response ;; ret parsed)) s =
  match snd sent with
  | Throw err =>
      ({| this := this s;
          host := {| net := fst sent; app := app (host s);
                     log := (log (host s) ++ [EEnter tag; EFetch req])%list |} |},
       Throw err)
  | Normal response =>
      ({| this := this s;
          host := {| net := fst (response_json response (fst sent));
                     app := app (host s);
                     log := (log (host s) ++ [EEnter tag; EFetch req; EJson response])%list |} |},
       snd (response_json response (fst sent)))
  end.
Proof.
  destruct s as [[c b ws] [n a l]]. cbv zeta.
  unfold do_fetch, do_json, bind, ret, emit, on_net, with_net, record; cbn.
  destruct (fetch req n) as [n1 [response|err]]; cbn;
    rewrite <- ?app_assoc; cbn; [|reflexivity].
  destruct (response_json response n1) as [n2 [v|err]]; cbn;
    rewrite <- ?app_assoc; reflexivity.
Qed.

Lemma recommend_run (payload : RecommendationRequest.t) s :
  recommend payload s =
  (emit (EEnter Mrecommend) ;;;
   (response <- do_fetch (post_json (this s) "/api/v1/ml/recommend"
                                    (RecommendationRequest.to_js payload)) ;;
    parsed <- do_json response ;; ret parsed)) s.
Proof. destruct s as [[c b ws] [n a l]]. reflexivity. Qed.

Lemma predict_run (payload : PredictionRequest.t) s :
  predict payload s =
  (emit (EEnter Mpredict) ;;;
   (response <- do_fetch (post_json (this s) "/api/v1/ml/predict"
                                    (PredictionRequest.to_js payload)) ;;
    parsed <- do_json response ;; ret parsed)) s.
Proof. destruct s as [[c b ws] [n a l]]. reflexivity. Qed.

(** C4. [recommend] and [predict] end as their outbound call ends: a
    rejected [fetch] is their rejection, with the same value; a body that
    does not parse is their rejection, with the parser's value; they return
    only what the parser returns.  Nothing is written to the console: the
    log shows the request and, when it was answered, the parse. *)
Theorem passthroughs_propagate
    (p : RecommendationRequest.t) (q : PredictionRequest.t) s :
  let outcome (req : Request) :=
    match snd (fetch req (net (host s))) with
    | Throw err => Throw err
    | Normal response => snd (response_json response (fst (fetch req (net (host s)))))
    end in
  let trace (tag : Method) (req : Request) :=
    EEnter tag :: EFetch req ::
    match snd (fetch req (net (host s))) with
    | Throw _ => []
    | Normal response => [EJson response]
    end in
  let req1 := post_json (this s) "/api/v1/ml/recommend" (RecommendationRequest.to_js p) in
  let req2 := post_json (this s) "/api/v1/ml/predict" (PredictionRequest.to_js q) in
  snd (recommend p s) = outcome req1 /\
  since (host s) (host (fst (recommend p s))) = trace Mrecommend req1 /\
  snd (predict q s) = outcome req2 /\
  since (host s) (host (fst (predict q s))) = trace Mpredict req2.
Proof.
  cbv zeta. rewrite recommend_run, predict_run, !passthrough_run. cbv zeta.
  unfold since.
  repeat split;
    match goal with
    | |- context [fetch ?r ?n] => destruct (fetch r n) as [n1 [response|err]]
    end; cbn; rewrite ?skipn_length_app; reflexivity.
Qed.

Lemma post_json_with_websocket s ws path v :
  post_json (this (with_websocket s ws)) path v = post_json (this s) path v.
Proof. reflexivity. Qed.

Lemma passthrough_frame (tag : Method) (req : Request) s ws :
  let run s :=
    (emit (EEnter tag) ;;;
     (response <- do_fetch req ;; parsed <- do_json response ;; ret parsed)) s in
  this (fst (run s)) = this s /\
  channel_calls (since (host s) (host (fst (run s)))) = [] /\
  host (fst (run (with_websocket s ws))) = host (fst (run s)) /\
  snd (run (with_websocket s ws)) = snd (run s).
Proof.
  cbv zeta. rewrite !passthrough_run. cbv zeta. unfold since.
  cbn [with_websocket host this].
  destruct (fetch req (net (host s))) as [n1 [response|err]]; cbn;
    rewrite ?skipn_length_app; repeat split.
Qed.

(** C10. [recommend] and [predict] leave the object, and with it the handle
    and its connection state, as they found it; they make no call on the
    handle; and what they do and return is the same whatever the handle is. *)
Theorem passthroughs_leave_channel
    (p : RecommendationRequest.t) (q : PredictionRequest.t) s ws :
  (this (fst (recommend p s)) = this s /\
   hub_state (websocket (this (fst (recommend p s)))) = hub_state (websocket (this s)) /\
   channel_calls (since (host s) (host (fst (recommend p s)))) = [] /\
   host (fst (recommend p (with_websocket s ws))) = host (fst (recommend p s)) /\
   snd (recommend p (with_websocket s ws)) = snd (recommend p s)) /\
  (this (fst (predict q s)) = this s /\
   hub_state (websocket (this (fst (predict q s)))) = hub_state (websocket (this s)) /\
   channel_calls (since (host s) (host (fst (predict q s)))) = [] /\
   host (fst (predict q (with_websocket s ws))) = host (fst (predict q s)) /\
   snd (predict q (with_websocket s ws)) = snd (predict q s)).
Proof.
  rewrite !recommend_run, !predict_run, !post_json_with_websocket.
  split.
  - destruct (passthrough_frame Mrecommend
                (post_json (this s) "/api/v1/ml/recommend" (RecommendationRequest.to_js p))
                s ws) as (E1 & E2 & E3 & E4).
    rewrite E1. auto.
  - destruct (passthrough_frame Mpredict
                (post_json (this s) "/api/v1/ml/predict" (PredictionRequest.to_js q))
                s ws) as (E1 & E2 & E3 & E4).
    rewrite E1. auto.
Qed.

Lemma since_same h : since h h = [].
Proof. unfold since. apply skipn_all. Qed.

Lemma connect_called_run s :
  let ws := websocket (this s) in
  connect_called s =
    (moved s (if HubConnectionState_eqb (hub_state ws) Connected then ws
              else hub_start_called ws)
             (EEnter Mconnect ::
              if HubConnectionState_eqb (hub_state ws) Connected then [] else [EStart]),
     negb (HubConnectionState_eqb (hub_state ws) Connected)).
Proof.
  destruct s as [[c b ws] [n a l]]. cbv zeta.
  unfold connect_called, emit, with_websocket, record, moved. cbn.
  destruct (HubConnectionState_eqb (hub_state ws) Connected); cbn;
    rewrite <- ?app_assoc; reflexivity.
Qed.

Lemma connect_splits s :
  connect s =
    if snd (connect_called s) then connect_settled (fst (connect_called s))
    else (fst (connect_called s), Normal tt).
Proof.
  destruct s as [[c b ws] [n a l]].
  unfold connect, connect_called, connect_settled, websocket_start, websocket_state,
    console_error, try_catch, bind, ret, emit, on_websocket, with_websocket, record,
    hub_start.
  cbn.
  destruct (HubConnectionState_eqb (hub_state ws) Connected); cbn; [reflexivity|].
  destruct (hub_start_settled (hub_start_called ws)) as [ws' [[]|err]]; reflexivity.
Qed.

Lemma connect_settled_run s :
  let ws := websocket (this s) in
  connect_settled s =
    (moved s (fst (hub_start_settled ws))
       (map EConsoleError
            (reported [JsString "Connect failed:"] (snd (hub_start_settled ws)))),
     Normal tt).
Proof.
  destruct s as [[c b ws] [n a l]]. cbv zeta.
  unfold connect_settled, console_error, try_catch, emit, on_websocket, with_websocket,
    record, moved.
  cbn.
  destruct (hub_start_settled ws) as [ws' [[]|err]]; cbn;
    rewrite ?app_nil_r; reflexivity.
Qed.

Lemma constructor_run (c : RecometryConfig App) h :
  let ws := hub_on "error" (error_handler c) (hub_build (spec_of c)) in
  constructor (object c) h =
    ({| net := net h; app := app h;
        log := (log h ++ EBuild (spec_of c) :: EOn "error" :: EEnter Mconnect ::
                if HubConnectionState_eqb (hub_state ws) Connected then []
                else [EStart])%list |},
     Normal {| configuration := c; baseUrl := base_of (env c);
               websocket := if HubConnectionState_eqb (hub_state ws) Connected then ws
                            else hub_start_called ws |}).
Proof.
  cbv zeta. unfold constructor. cbn [truthy negb properties].
  rewrite connect_called_run. cbn.
  rewrite <- !app_assoc. reflexivity.
Qed.

Lemma constructor_uses_base (c : RecometryConfig App) h :
  uses_base (base_of (env c)) c h.
Proof.
  unfold uses_base. rewrite constructor_run; cbv zeta; cbn [fst snd].
  eexists; split; [reflexivity|]. cbn [configuration baseUrl].
  split; [reflexivity|]. split; [reflexivity|]. split.
  - unfold since; cbn [log]. rewrite skipn_length_app. cbn [built map hub_url spec_of].
    destruct (HubConnectionState_eqb _ Connected); reflexivity.
  - intros h' p q.
    rewrite recommend_run, predict_run, !passthrough_run. cbv zeta.
    unfold since. cbn [this host].
    split;
      match goal with
      | |- context [fetch ?r ?n] => destruct (fetch r n) as [n1 [response|err]]
      end; cbn; rewrite skipn_length_app; reflexivity.
Qed.

(** C8. Constructing with no configuration object ([undefined] or [null])
    throws the error "config is required" and leaves the surroundings as
    they were: no channel is built and nothing is started. *)
Theorem construction_without_config h :
  constructor undefined h = (h, Throw (JsError "config is required")) /\
  constructor null h = (h, Throw (JsError "config is required")) /\
  since h (fst (constructor undefined h)) = [] /\
  since h (fst (constructor null h)) = [].
Proof. cbn. rewrite since_same. repeat split. Qed.

(** C3, as the code has it.  Construction throws, before anything is
    built or started, whenever the configuration argument is absent or
    otherwise false for [!config]: [undefined], [null], [false], zero,
    [NaN], the empty string.  It does not throw for want of a credential or
    an environment: every configuration object constructs, whatever its
    fields hold; the object keeps the configuration as given, the one channel
    built hands out the credential as it is, absent included, and the base
    address is what the conditional on [env] selects.  Any other argument
    constructs as an object without properties. *)
Theorem construction_needs_only_config (config : Argument (RecometryConfig App)) h :
  let h' := fst (constructor config h) in
  let failed := constructor config h = (h, Throw (JsError "config is required")) in
  let built_with (c : RecometryConfig App) :=
    exists r : Recometry Hub App,
      snd (constructor config h) = Normal r /\
      configuration r = c /\
      baseUrl r = base_of (env c) /\
      map (fun spec => (hub_url spec, accessTokenFactory spec tt)) (built (since h h'))
        = [(base_of (env c) ++ "/metrics", apiKey c)] in
  match config with
  | undefined | null => failed
  | primitive p =>
      if falsy p then failed
      else built_with {| apiKey := None; env := None; onError := None |}
  | object c => built_with c
  end.
Proof.
  assert (B : forall c : RecometryConfig App,
             let r := constructor (object c) h in
             exists r0 : Recometry Hub App,
               snd r = Normal r0 /\ configuration r0 = c /\
               baseUrl r0 = base_of (env c) /\
               map (fun spec => (hub_url spec, accessTokenFactory spec tt))
                   (built (since h (fst r)))
                 = [(base_of (env c) ++ "/metrics", apiKey c)]).
  { intros c. cbv zeta. rewrite constructor_run; cbv zeta; cbn [fst snd].
    eexists. split; [reflexivity|]. cbn [configuration baseUrl].
    split; [reflexivity|]. split; [reflexivity|].
    unfold since; cbn [log]. rewrite skipn_length_app. cbn [built].
    destruct (HubConnectionState_eqb _ Connected); reflexivity. }
  cbv zeta. destruct config as [| |p|c]; try reflexivity.
  - destruct (falsy p) eqn:F.
    + unfold constructor. cbn [truthy]. rewrite F. reflexivity.
    + replace (constructor (primitive p) h)
        with (constructor (object {| apiKey := None; env := None; onError := None |}) h).
      * apply B.
      * unfold constructor. cbn [truthy properties]. rewrite F. reflexivity.
  - apply B.
Qed.

(** C5. With [env] the string "sandbox" the base address is the local
    development address, with "live" the production address; the channel is
    built at [base/metrics] and the passthroughs post to
    [base/api/v1/ml/recommend] and [base/api/v1/ml/predict]. *)
Theorem base_address_by_environment (e : Environment) (c : RecometryConfig App) h :
  env c = Some (Environment_name e) ->
  uses_base (address_of e) c h.
Proof.
  intros E. replace (address_of e) with (base_of (env c)).
  - apply constructor_uses_base.
  - rewrite E. destruct e; reflexivity.
Qed.

(** C9. Whatever [env] holds other than the string "live" -- nothing, the
    empty string, any other string -- construction returns and the local
    development address is the base of the channel and of both
    passthroughs. *)
Theorem unvalidated_environment_is_sandbox (c : RecometryConfig App) h :
  env c <> Some "live" ->
  uses_base "https://localhost:5001" c h.
Proof.
  intros E. replace "https://localhost:5001" with (base_of (env c)).
  - apply constructor_uses_base.
  - unfold base_of. destruct (env c) as [v|]; [|reflexivity].
    destruct (String.eqb_spec v "live") as [->|]; [congruence|reflexivity].
Qed.

Lemma hub_start_keeps (name : string) ws :
  hub_handlers name (fst (hub_start ws)) = hub_handlers name ws.
Proof.
  unfold hub_start. rewrite hub_start_settled_keeps. apply hub_start_called_keeps.
Qed.

Lemma connect_hub_keeps (name : string) ws :
  hub_handlers name (connect_hub ws) = hub_handlers name ws.
Proof.
  unfold connect_hub.
  destruct (HubConnectionState_eqb (hub_state ws) Connected);
    [reflexivity | apply hub_start_keeps].
Qed.

Lemma disconnect_hub_keeps (name : string) ws :
  hub_handlers name (disconnect_hub ws) = hub_handlers name ws.
Proof.
  unfold disconnect_hub.
  destruct (HubConnectionState_eqb (hub_state ws) Disconnected);
    [reflexivity | apply hub_stop_keeps].
Qed.

Lemma reconnect_hub_keeps (name : string) ws :
  hub_handlers name (reconnect_hub ws) = hub_handlers name ws.
Proof.
  unfold reconnect_hub.
  destruct (HubConnectionState_eqb (hub_state ws) Connected); [reflexivity|].
  rewrite connect_hub_keeps. apply disconnect_hub_keeps.
Qed.

Lemma error_handler_run (c : RecometryConfig App) (err : JsValue) h :
  let d := since h (fst (error_handler c err h)) in
  net (fst (error_handler c err h)) = net h /\
  log (fst (error_handler c err h)) = (log h ++ d)%list /\
  match onError c with
  | Some cb =>
      d = [EConsoleLog [JsString "error"; err]; EOnError err] /\
      app (fst (error_handler c err h)) = fst (cb err (app h)) /\
      snd (error_handler c err h) = snd (cb err (app h))
  | None =>
      d = [EConsoleLog [JsString "error"; err]] /\
      app (fst (error_handler c err h)) = app h /\
      snd (error_handler c err h) = Normal tt
  end.
Proof.
  destruct h as [n a l]. cbv zeta. unfold error_handler, since, record.
  destruct (onError c) as [cb|]; cbn;
    rewrite <- ?app_assoc, ?skipn_length_app; cbn; repeat split.
Qed.

(** C7.  The constructor registers the closure of the source as the one
    handler of the "error" notification, and the lifecycle calls leave it
    registered.  So a notification delivered to a constructed manager, in
    whatever surroundings, runs that closure once: it writes the error to
    the console and, when a callback is configured, calls it once, with the
    error it was given; the run ends as the callback ends, so the callback is
    waited for and its rejection is the handler's.  Without a callback only
    the console line is written.  The object and the network are not
    touched. *)
Theorem error_callback_once (c : RecometryConfig App) (err : JsValue) h0 h :
  match snd (constructor (object c) h0) with
  | Throw _ => False
  | Normal r =>
      let s := {| this := r; host := h |} in
      let s' := fst (notify "error" err s) in
      let d := since h (host s') in
      hub_handlers "error" (websocket r) = [error_handler c] /\
      (forall (event : RecometryEvent.t) (s1 : State Hub Net App),
         hub_handlers "error" (websocket (this (fst (collect event s1)))) =
         hub_handlers "error" (websocket (this s1))) /\
      (forall s1 : State Hub Net App,
         hub_handlers "error" (websocket (this (fst (connect_settled s1)))) =
         hub_handlers "error" (websocket (this s1))) /\
      this s' = r /\
      net (host s') = net h /\
      log (host s') = (log h ++ d)%list /\
      match onError c with
      | Some cb =>
          d = [EConsoleLog [JsString "error"; err]; EOnError err] /\
          callbacks d = [err] /\
          app (host s') = fst (cb err (app h)) /\
          snd (notify "error" err s) = [snd (cb err (app h))]
      | None =>
          d = [EConsoleLog [JsString "error"; err]] /\
          callbacks d = [] /\
          app (host s') = app h /\
          snd (notify "error" err s) = [Normal tt]
      end
  end.
Proof.
  rewrite constructor_run; cbv zeta; cbn [snd].
  assert (R : hub_handlers "error"
                (if HubConnectionState_eqb
                      (hub_state (hub_on "error" (error_handler c) (hub_build (spec_of c))))
                      Connected
                 then hub_on "error" (error_handler c) (hub_build (spec_of c))
                 else hub_start_called
                        (hub_on "error" (error_handler c) (hub_build (spec_of c))))
              = [error_handler c]).
  { destruct (HubConnectionState_eqb _ Connected);
      rewrite ?hub_start_called_keeps; apply hub_on_registers. }
  split; [exact R|].
  split.
  { intros event s1. rewrite collect_run; cbv zeta; cbn [fst moved this websocket].
    rewrite hub_invoke_keeps. apply reconnect_hub_keeps. }
  split.
  { intros s1. rewrite connect_settled_run; cbv zeta; cbn [fst moved this websocket].
    apply hub_start_settled_keeps. }
  unfold notify. cbn [this websocket]. rewrite R. cbn [fold_left fst snd this host app].
  destruct (error_handler_run c err h) as (N & L & E).
  split; [reflexivity|]. split; [exact N|]. split; [exact L|].
  destruct (onError c) as [cb|]; destruct E as (D & A & C);
    cbn [app]; rewrite D, C; repeat split; assumption.
Qed.

End Properties.

(** ** The statements at the test doubles *)

Lemma base_address_by_environment_witness :
  env (Mock.config_of live) = Some (Environment_name live) /\
  uses_base (Hub := Mock.Hub) "https://api.recometry.com" (Mock.config_of live) Mock.host0.
Proof.
  split; [reflexivity|].
  apply (base_address_by_environment live (Mock.config_of live) Mock.host0).
  reflexivity.
Defined.

Lemma unvalidated_environment_is_sandbox_witness :
  env Mock.staging <> Some "live" /\
  uses_base (Hub := Mock.Hub) "https://localhost:5001" Mock.staging Mock.host0.
Proof.
  split; [discriminate|].
  apply (unvalidated_environment_is_sandbox Mock.staging Mock.host0).
  discriminate.
Defined.

(** C3 as stated fails: a configuration with neither credential nor
    environment constructs, starts its channel and gets the local address. *)
Lemma construction_without_fields_succeeds :
  (apiKey Mock.no_fields = None \/ env Mock.no_fields = None) /\
  constructor (object Mock.no_fields) Mock.host0 =
    ({| net := {| Mock.replies := [] |};
        app := [];
        log := [EBuild (spec_of Mock.no_fields); EOn "error"; EEnter Mconnect; EStart] |},
     Normal {| configuration := Mock.no_fields;
               baseUrl := "https://localhost:5001";
               websocket := {| Mock.current := Connecting; Mock.script := [];
                               Mock.handlers := [("error", error_handler Mock.no_fields)] |} |}).
Proof. split; [left; reflexivity | reflexivity]. Qed.

Example mock_construct_live :
  constructor (object (Mock.config_of live)) Mock.host0 =
    ({| net := {| Mock.replies := [] |};
        app := [];
        log := [EBuild {| hub_url := "https://api.recometry.com/metrics";
                          accessTokenFactory := fun _ => Some "k";
                          skipNegotiation := true;
                          transport := WebSockets;
                          automaticReconnect := true |};
                EOn "error"; EEnter Mconnect; EStart] |},
     Normal {| configuration := Mock.config_of live;
               baseUrl := "https://api.recometry.com";
               websocket := {| Mock.current := Connecting; Mock.script := [];
                               Mock.handlers := [("error", error_handler (Mock.config_of live))] |} |}).
Proof. reflexivity. Qed.

Example mock_construct_falsy :
  map (fun v => constructor (Hub := Mock.Hub) v Mock.host0)
      [undefined; null; primitive (PBoolean false); primitive (PNumber 0);
       primitive PNaN; primitive (PString "")] =
    repeat (Mock.host0, Throw (JsError "config is required")) 6.
Proof. reflexivity. Qed.

Example mock_initial_start_fails_later :
  let failing := [(Disconnected, Throw (JsError "down"))] in
  let pending := {| Mock.current := Connecting; Mock.script := failing; Mock.handlers := [] |} in
  connect_settled (with_websocket (Mock.machine Connecting []) pending) =
    (moved (Mock.machine Connecting [])
           {| Mock.current := Disconnected; Mock.script := []; Mock.handlers := [] |}
           [EConsoleError [JsString "Connect failed:"; JsError "down"]],
     Normal tt).
Proof. reflexivity. Qed.

Example mock_environment_not_checked :
  map (fun e => base_of e) [None; Some ""; Some "Live"; Some "production"; Some "sandbox"; Some "live"] =
    ["https://localhost:5001"; "https://localhost:5001"; "https://localhost:5001";
     "https://localhost:5001"; "https://localhost:5001"; "https://api.recometry.com"].
Proof. reflexivity. Qed.

Example mock_reconnect_connected :
  reconnect (Mock.machine Connected []) =
    (moved (Mock.machine Connected [])
           {| Mock.current := Connected; Mock.script := []; Mock.handlers := [] |}
           [EEnter Mreconnect], Normal tt).
Proof. reflexivity. Qed.

Example mock_reconnect_connecting :
  log (host (fst (reconnect (Mock.machine Connecting [])))) =
    [EEnter Mreconnect; EEnter Mdisconnect; EStop; EEnter Mconnect; EStart].
Proof. reflexivity. Qed.

Example mock_recommend_rejected :
  let p := {| RecommendationRequest.modelId := "m"; RecommendationRequest.userId := "u";
              RecommendationRequest.limit := 5 |} in
  snd (recommend p (Mock.machine Disconnected [])) = Throw (JsError "Failed to fetch") /\
  log (host (fst (recommend p (Mock.machine Disconnected [])))) =
    [EEnter Mrecommend;
     EFetch {| url := "https://localhost:5001/api/v1/ml/recommend";
               method := "POST";
               headers := [("Content-Type", "application/json"); ("Authorization", "Bearer k")];
               body := "{}" |}].
Proof. split; reflexivity. Qed.

Example mock_predict_not_json :
  let q := {| PredictionRequest.modelId := "m"; PredictionRequest.data := [];
              PredictionRequest.limit := 1 |} in
  let s := with_net (Mock.machine Connected [])
             {| Mock.replies := [Normal {| status := 502; text := "<html>Bad Gateway</html>" |}] |} in
  snd (predict q s) = Throw (JsError "Unexpected token").
Proof. reflexivity. Qed.

Example mock_error_callback_rejects :
  match snd (constructor (object (Mock.config_of sandbox)) Mock.host0) with
  | Throw _ => False
  | Normal r =>
      notify "error" JsNull {| this := r; host := Mock.host0 |} =
        ({| this := r;
            host := {| net := {| Mock.replies := [] |};
                       app := [JsNull];
                       log := [EConsoleLog [JsString "error"; JsNull]; EOnError JsNull] |} |},
         [Throw (JsError "callback failed")])
  end.
Proof. reflexivity. Qed.

(** * Further properties of the lifecycle, the passthroughs and the constructor *)

Lemma requests_app l1 l2 : requests (l1 ++ l2) = (requests l1 ++ requests l2)%list.
Proof.
  induction l1 as [|e l1 IH]; simpl; [reflexivity|].
  destruct e; simpl; rewrite ?IH; reflexivity.
Qed.

Lemma callbacks_app l1 l2 : callbacks (l1 ++ l2) = (callbacks l1 ++ callbacks l2)%list.
Proof.
  induction l1 as [|e l1 IH]; simpl; [reflexivity|].
  destruct e; simpl; rewrite ?IH; reflexivity.
Qed.

Section Further.

Context {Hub Net App : Type} `{HubConnection Hub (Handler Net App)} `{Platform Net}.

Implicit Types (s : State Hub Net App) (h : Host Net App) (ws : Hub).

Notation "x <- m ;; k" := (bind m (fun x => k))
  (at level 61, m at next level, right associativity).
Notation "m ;;; k" := (bind m (fun _ => k))
  (at level 61, right associativity).

(** X1. [disconnect()] never throws.  Found [Disconnected], it returns at
    once without stopping the handle and leaves the object unchanged.  In
    every other state it stops the handle, once; a failing stop is written to
    the console, as the bare error, and goes no further. *)
Theorem disconnect_stops_once s :
  let ws := websocket (this s) in
  let s' := fst (disconnect s) in
  let d := since (host s) (host s') in
  snd (disconnect s) = Normal tt /\
  log (host s') = (log (host s) ++ d)%list /\
  match hub_state ws with
  | Disconnected => d = [EEnter Mdisconnect] /\ channel_calls d = [] /\ this s' = this s
  | Connecting | Connected | Reconnecting =>
      websocket (this s') = fst (hub_stop ws) /\
      channel_calls d = [EStop] /\
      d = EEnter Mdisconnect :: EStop ::
          match snd (hub_stop ws) with
          | Normal _ => []
          | Throw err => [EConsoleError [err]]
          end
  end.
Proof.
  cbv zeta. rewrite disconnect_run; cbn [fst snd]. rewrite since_moved.
  split; [reflexivity|]. split; [reflexivity|].
  unfold disconnect_trace, disconnect_hub.
  destruct (hub_state (websocket (this s))); cbn [HubConnectionState_eqb];
    try (repeat split; try reflexivity;
         destruct (snd (hub_stop (websocket (this s)))); reflexivity).
  repeat split. apply this_moved_same.
Qed.

(** X2. The calls [reconnect()] makes on the handle, whether or not they
    fail.  Found [Connected]: none.  Found [Disconnected]: one start and no
    stop.  Found [Connecting] or [Reconnecting]: one stop; then one start on
    the handle the stop left, unless the stop left it [Connected], in which
    case nothing is started. *)
Theorem reconnect_channel_calls s :
  let ws := websocket (this s) in
  let s' := fst (reconnect s) in
  let d := since (host s) (host s') in
  match hub_state ws with
  | Connected => channel_calls d = [] /\ websocket (this s') = ws
  | Disconnected =>
      channel_calls d = [EStart] /\ websocket (this s') = fst (hub_start ws)
  | Connecting | Reconnecting =>
      match hub_state (fst (hub_stop ws)) with
      | Connected =>
          channel_calls d = [EStop] /\ websocket (this s') = fst (hub_stop ws)
      | Disconnected | Connecting | Reconnecting =>
          channel_calls d = [EStop; EStart] /\
          websocket (this s') = fst (hub_start (fst (hub_stop ws)))
      end
  end.
Proof.
  cbv zeta. rewrite reconnect_run; cbn [fst snd]. rewrite since_moved.
  cbn [moved this websocket].
  unfold reconnect_trace, reconnect_hub, disconnect_trace, disconnect_hub.
  destruct (hub_state (websocket (this s))) eqn:E; cbn [HubConnectionState_eqb];
    try (split; reflexivity).
  - unfold connect_trace, connect_hub. rewrite E. cbn.
    destruct (snd (hub_start (websocket (this s)))); split; reflexivity.
  - unfold connect_trace, connect_hub.
    destruct (hub_stop (websocket (this s))) as [ws1 c1]; cbn [fst snd].
    destruct (hub_state ws1); cbn [HubConnectionState_eqb];
      destruct c1; try destruct (snd (hub_start ws1)); split; reflexivity.
  - unfold connect_trace, connect_hub.
    destruct (hub_stop (websocket (this s))) as [ws1 c1]; cbn [fst snd].
    destruct (hub_state ws1); cbn [HubConnectionState_eqb];
      destruct c1; try destruct (snd (hub_start ws1)); split; reflexivity.
Qed.

Lemma console_errors_app l1 l2 :
  console_errors (l1 ++ l2) = (console_errors l1 ++ console_errors l2)%list.
Proof.
  induction l1 as [|e l1 IH]; simpl; [reflexivity|].
  destruct e; simpl; rewrite ?IH; reflexivity.
Qed.

(** X3. What [reconnect()] writes with [console.error]: one line for a stop
    that failed (the bare error), then one line for a start that failed
    ("Connect failed:" and the error), each only when that call was made;
    nothing otherwise.  Its own [catch] adds no line. *)
Theorem reconnect_logs_each_failure s :
  let ws := websocket (this s) in
  let d := since (host s) (host (fst (reconnect s))) in
  match hub_state ws with
  | Connected => console_errors d = []
  | Disconnected =>
      console_errors d = reported [JsString "Connect failed:"] (snd (hub_start ws))
  | Connecting | Reconnecting =>
      console_errors d =
        (reported [] (snd (hub_stop ws)) ++
         match hub_state (fst (hub_stop ws)) with
         | Connected => []
         | Disconnected | Connecting | Reconnecting =>
             reported [JsString "Connect failed:"] (snd (hub_start (fst (hub_stop ws))))
         end)%list
  end.
Proof.
  cbv zeta. rewrite reconnect_run; cbn [fst snd]. rewrite since_moved.
  unfold reconnect_trace, disconnect_trace, disconnect_hub.
  destruct (hub_state (websocket (this s))) eqn:E; cbn [HubConnectionState_eqb];
    try reflexivity.
  - unfold connect_trace. rewrite E. cbn.
    destruct (snd (hub_start (websocket (this s)))); reflexivity.
  - unfold connect_trace.
    destruct (hub_stop (websocket (this s))) as [ws1 c1]; cbn [fst snd].
    destruct (hub_state ws1); cbn [HubConnectionState_eqb];
      destruct c1; try destruct (snd (hub_start ws1)); reflexivity.
  - unfold connect_trace.
    destruct (hub_stop (websocket (this s))) as [ws1 c1]; cbn [fst snd].
    destruct (hub_state ws1); cbn [HubConnectionState_eqb];
      destruct c1; try destruct (snd (hub_start ws1)); reflexivity.
Qed.

(** X4. On a handle found [Connected], [collect(event)] neither stops nor
    starts it: the invoke is its only call on the handle, it enters
    [reconnect()] and nothing below it, and the console gets one line,
    "Collect failed:" and the error, exactly when the invoke fails. *)
Theorem collect_connected_only_invokes (event : RecometryEvent.t) s :
  hub_state (websocket (this s)) = Connected ->
  let sent := hub_invoke "collect" [RecometryEvent.to_js event] (websocket (this s)) in
  let s' := fst (collect event s) in
  let d := since (host s) (host s') in
  channel_calls d = [EInvoke "collect" [RecometryEvent.to_js event]] /\
  entered d = [Mcollect; Mreconnect] /\
  console_errors d = reported [JsString "Collect failed:"] (snd sent) /\
  websocket (this s') = fst sent.
Proof.
  intros E. cbv zeta. rewrite collect_run; cbn [fst snd]. rewrite since_moved.
  cbn [moved this websocket].
  unfold reconnect_trace, reconnect_hub. rewrite E. cbn.
  destruct (snd (hub_invoke "collect" [RecometryEvent.to_js event] (websocket (this s))));
    repeat split.
Qed.

Lemma reconnect_trace_calls ws :
  In (channel_calls (reconnect_trace ws)) [[]; [EStart]; [EStop]; [EStop; EStart]].
Proof.
  unfold reconnect_trace, disconnect_trace, disconnect_hub, connect_trace.
  destruct (hub_state ws) eqn:E; cbn [HubConnectionState_eqb].
  - rewrite E. cbn. destruct (snd (hub_start ws)); cbn; auto.
  - destruct (hub_stop ws) as [ws1 c1]; cbn [fst snd].
    destruct (hub_state ws1); cbn [HubConnectionState_eqb];
      destruct c1; try destruct (snd (hub_start ws1)); cbn; auto.
  - cbn; auto.
  - destruct (hub_stop ws) as [ws1 c1]; cbn [fst snd].
    destruct (hub_state ws1); cbn [HubConnectionState_eqb];
      destruct c1; try destruct (snd (hub_start ws1)); cbn; auto.
Qed.

(** X5. Whatever the handle does, the calls [collect(event)] makes on it
    are at most one stop, then at most one start, then the invoke: the
    invoke is always made, last, and no call is made twice. *)
Theorem collect_invoke_is_last (event : RecometryEvent.t) s :
  let d := since (host s) (host (fst (collect event s))) in
  exists before : list Event,
    channel_calls d = (before ++ [EInvoke "collect" [RecometryEvent.to_js event]])%list /\
    In before [[]; [EStart]; [EStop]; [EStop; EStart]].
Proof.
  cbv zeta. rewrite collect_run; cbn [fst snd]. rewrite since_moved.
  exists (channel_calls (reconnect_trace (websocket (this s)))).
  split; [|apply reconnect_trace_calls].
  unfold channel_calls. cbn [filter is_channel_call]. rewrite filter_app.
  cbn [filter is_channel_call]. f_equal. f_equal.
  destruct (snd (hub_invoke "collect" [RecometryEvent.to_js event]
                   (reconnect_hub (websocket (this s))))); reflexivity.
Qed.

Lemma quiet_connect_trace ws :
  requests (connect_trace ws) = [] /\ callbacks (connect_trace ws) = [].
Proof.
  unfold connect_trace; cbn.
  destruct (HubConnectionState_eqb (hub_state ws) Connected); cbn; [auto|].
  destruct (snd (hub_start ws)); auto.
Qed.

Lemma quiet_disconnect_trace ws :
  requests (disconnect_trace ws) = [] /\ callbacks (disconnect_trace ws) = [].
Proof.
  unfold disconnect_trace; cbn.
  destruct (HubConnectionState_eqb (hub_state ws) Disconnected); cbn; [auto|].
  destruct (snd (hub_stop ws)); auto.
Qed.

Lemma quiet_reconnect_trace ws :
  requests (reconnect_trace ws) = [] /\ callbacks (reconnect_trace ws) = [].
Proof.
  unfold reconnect_trace; cbn [requests callbacks].
  destruct (HubConnectionState_eqb (hub_state ws) Connected); [auto|].
  rewrite requests_app, callbacks_app.
  destruct (quiet_disconnect_trace ws) as [-> ->].
  destruct (quiet_connect_trace (disconnect_hub ws)) as [-> ->]. auto.
Qed.

Lemma keeps_surroundings_moved {A} (m : M A) s ws d (r : Completion A) :
  m s = (moved s ws d, r) ->
  requests d = [] -> callbacks d = [] ->
  keeps_surroundings m s.
Proof.
  intros E R C. unfold keeps_surroundings. rewrite E; cbn [fst].
  rewrite since_moved. cbn. auto 6.
Qed.

(** X6. The four lifecycle methods work on the handle and the console
    only: [connect], [disconnect], [reconnect] and [collect] leave the
    network, the application, the configuration and the base address as they
    were, send no request, and never call the error callback, not even for a
    failure they catch. *)
Theorem lifecycle_keeps_surroundings (event : RecometryEvent.t) s :
  keeps_surroundings connect s /\
  keeps_surroundings disconnect s /\
  keeps_surroundings reconnect s /\
  keeps_surroundings (collect event) s.
Proof.
  split; [|split; [|split]].
  - eapply keeps_surroundings_moved;
      [apply connect_run | apply quiet_connect_trace | apply quiet_connect_trace].
  - eapply keeps_surroundings_moved;
      [apply disconnect_run | apply quiet_disconnect_trace | apply quiet_disconnect_trace].
  - eapply keeps_surroundings_moved;
      [apply reconnect_run | apply quiet_reconnect_trace | apply quiet_reconnect_trace].
  - eapply keeps_surroundings_moved; [apply collect_run | |]; cbv zeta.
    + cbn [requests]. rewrite requests_app.
      destruct (quiet_reconnect_trace (websocket (this s))) as [-> _]. cbn.
      destruct (snd (hub_invoke "collect" [RecometryEvent.to_js event]
                       (reconnect_hub (websocket (this s))))); reflexivity.
    + cbn [callbacks]. rewrite callbacks_app.
      destruct (quiet_reconnect_trace (websocket (this s))) as [_ ->]. cbn.
      destruct (snd (hub_invoke "collect" [RecometryEvent.to_js event]
                       (reconnect_hub (websocket (this s))))); reflexivity.
Qed.

Lemma passthrough_sends_once (tag : Method) (req : Request) s :
  let run s :=
    (emit (EEnter tag) ;;;
     (response <- do_fetch req ;; parsed <- do_json response ;; ret parsed)) s in
  requests (since (host s) (host (fst (run s)))) = [req] /\
  app (host (fst (run s))) = app (host s) /\
  callbacks (since (host s) (host (fst (run s)))) = [] /\
  console_errors (since (host s) (host (fst (run s)))) = [].
Proof.
  cbv zeta. rewrite !passthrough_run. cbv zeta. unfold since.
  destruct (fetch req (net (host s))) as [n1 [response|err]]; cbn;
    rewrite ?skipn_length_app; repeat split.
Qed.

(** X7. Whatever the network answers, [recommend] and [predict] send
    exactly one request each: a POST to their path under the base address,
    with the JSON content type, the configured credential after "Bearer " in
    the authorization header, and the serialised payload as body.  They do
    not touch the application, call the error callback or write an error to
    the console. *)
Theorem passthrough_request_shape
    (p : RecommendationRequest.t) (q : PredictionRequest.t) s :
  let request (path : string) (payload : JsValue) :=
    {| url := baseUrl (this s) ++ path;
       method := "POST";
       headers := [("Content-Type", "application/json");
                   ("Authorization",
                    "Bearer " ++ interpolate (apiKey (configuration (this s))))];
       body := JSON_stringify payload |} in
  let d1 := since (host s) (host (fst (recommend p s))) in
  let d2 := since (host s) (host (fst (predict q s))) in
  (requests d1 = [request "/api/v1/ml/recommend" (RecommendationRequest.to_js p)] /\
   app (host (fst (recommend p s))) = app (host s) /\
   callbacks d1 = [] /\ console_errors d1 = []) /\
  (requests d2 = [request "/api/v1/ml/predict" (PredictionRequest.to_js q)] /\
   app (host (fst (predict q s))) = app (host s) /\
   callbacks d2 = [] /\ console_errors d2 = []).
Proof.
  cbv zeta. rewrite recommend_run, predict_run. split.
  - apply (passthrough_sends_once Mrecommend
             (post_json (this s) "/api/v1/ml/recommend" (RecommendationRequest.to_js p)) s).
  - apply (passthrough_sends_once Mpredict
             (post_json (this s) "/api/v1/ml/predict" (PredictionRequest.to_js q)) s).
Qed.

(** X8. With no credential in the configuration the passthroughs still
    send their request; its authorization header reads "Bearer undefined". *)
Theorem passthrough_without_credential
    (p : RecommendationRequest.t) (q : PredictionRequest.t) s :
  apiKey (configuration (this s)) = None ->
  map headers (requests (since (host s) (host (fst (recommend p s))))) =
    [[("Content-Type", "application/json"); ("Authorization", "Bearer undefined")]] /\
  map headers (requests (since (host s) (host (fst (predict q s))))) =
    [[("Content-Type", "application/json"); ("Authorization", "Bearer undefined")]].
Proof.
  intros E. rewrite recommend_run, predict_run. split.
  - destruct (passthrough_sends_once Mrecommend
                (post_json (this s) "/api/v1/ml/recommend" (RecommendationRequest.to_js p)) s)
      as [-> _].
    cbn. rewrite E. reflexivity.
  - destruct (passthrough_sends_once Mpredict
                (post_json (this s) "/api/v1/ml/predict" (PredictionRequest.to_js q)) s)
      as [-> _].
    cbn. rewrite E. reflexivity.
Qed.

(** X9. Construction with a configuration object returns without waiting
    for the connection.  At return it has built one channel (at the base
    address, path /metrics, the credential as access token, negotiation
    skipped, WebSockets, automatic reconnect on), registered the "error"
    handler and entered [connect()], which has called [start()] unless the
    handle was already [Connected]; the start is pending, nothing has been
    written with [console.error], and the network and the application are
    untouched.  What the constructor ran and what remains are one
    [connect()] cut at its [await].  When the pending start settles, in
    whatever state the object then is, the remainder never throws: it takes
    the handle the start leaves and writes "Connect failed:" with the error
    exactly when the start was rejected. *)
Theorem construction_survives_failed_start (c : RecometryConfig App) h :
  let spec := {| hub_url := base_of (env c) ++ "/metrics";
                 accessTokenFactory := fun _ => apiKey c;
                 skipNegotiation := true;
                 transport := WebSockets;
                 automaticReconnect := true |} in
  let ws := hub_on "error" (error_handler c) (hub_build spec) in
  let h' := fst (constructor (object c) h) in
  let d := since h h' in
  (net h' = net h /\ app h' = app h /\
   log h' = (log h ++ d)%list /\
   console_errors d = [] /\
   match hub_state ws with
   | Connected =>
       d = [EBuild spec; EOn "error"; EEnter Mconnect] /\
       snd (constructor (object c) h) =
         Normal {| configuration := c; baseUrl := base_of (env c); websocket := ws |}
   | Disconnected | Connecting | Reconnecting =>
       d = [EBuild spec; EOn "error"; EEnter Mconnect; EStart] /\
       snd (constructor (object c) h) =
         Normal {| configuration := c; baseUrl := base_of (env c);
                   websocket := hub_start_called ws |}
   end) /\
  (forall s : State Hub Net App,
     connect s =
       if snd (connect_called s) then connect_settled (fst (connect_called s))
       else (fst (connect_called s), Normal tt)) /\
  (forall s : State Hub Net App,
     let settled := hub_start_settled (websocket (this s)) in
     let s' := fst (connect_settled s) in
     snd (connect_settled s) = Normal tt /\
     websocket (this s') = fst settled /\
     configuration (this s') = configuration (this s) /\
     baseUrl (this s') = baseUrl (this s) /\
     net (host s') = net (host s) /\ app (host s') = app (host s) /\
     log (host s') =
       (log (host s) ++
        map EConsoleError (reported [JsString "Connect failed:"] (snd settled)))%list).
Proof.
  cbv zeta. split; [|split].
  - rewrite constructor_run; cbv zeta; cbn [fst snd].
    unfold since; cbn [net app log]. rewrite skipn_length_app.
    split; [reflexivity|]. split; [reflexivity|]. split; [reflexivity|].
    unfold spec_of.
    destruct (hub_state (hub_on "error" (error_handler c) (hub_build _)));
      cbn [HubConnectionState_eqb]; repeat split.
  - apply connect_splits.
  - intros s. rewrite connect_settled_run; cbv zeta; cbn [fst snd].
    repeat split.
Qed.

End Further.

Lemma collect_connected_only_invokes_witness :
  hub_state (websocket (this (Mock.machine Connected []))) = Connected /\
  channel_calls (since (host (Mock.machine Connected []))
                       (host (fst (collect Mock.click1 (Mock.machine Connected [])))))
    = [EInvoke "collect" [RecometryEvent.to_js Mock.click1]].
Proof.
  split; [reflexivity|].
  apply (collect_connected_only_invokes Mock.click1 (Mock.machine Connected [])).
  reflexivity.
Defined.

Lemma passthrough_without_credential_witness :
  apiKey (configuration (this (Mock.keyless Connected))) = None /\
  map headers (requests (since (host (Mock.keyless Connected))
      (host (fst (recommend {| RecommendationRequest.modelId := "m";
                               RecommendationRequest.userId := "u";
                               RecommendationRequest.limit := 5 |}
                            (Mock.keyless Connected)))))) =
    [[("Content-Type", "application/json"); ("Authorization", "Bearer undefined")]].
Proof.
  split; [reflexivity|].
  exact (proj1 (passthrough_without_credential
                  {| RecommendationRequest.modelId := "m"; RecommendationRequest.userId := "u";
                     RecommendationRequest.limit := 5 |}
                  {| PredictionRequest.modelId := "m"; PredictionRequest.data := [];
                     PredictionRequest.limit := 1 |}
                  (Mock.keyless Connected) eq_refl)).
Defined.
